(** * go-msvc/http: the REST server of package [server]

    A shallow embedding of [server/server.go]: the configuration check
    [Config.Validate] and the request dispatcher [server.ServeHTTP], together
    with the parts of the Go libraries the dispatcher calls ([strings], the
    [errors] package of go-msvc, [net/http], [encoding/json]).

    Go strings are byte strings and are rendered as [string]; a Go [int] that
    is only compared and printed is rendered as [Z]; a Go map is a [gmap];
    an interface is a record of its methods.  Calls to the logger write to the
    process log only and are left out. *)

From stdpp Require Import base option list strings pretty gmap.
From Stdlib Require Import ZArith Lia Sorted.

Set Warnings "-register-all".
Local Open Scope Z_scope.

(** ** Package [strings] *)

(** [strings.CutPrefix]: [s] without the leading [prefix], if it starts with
    it. *)
Fixpoint CutPrefix (s prefix : string) {struct prefix} : option string :=
  match prefix, s with
  | EmptyString, _ => Some s
  | String a p, String b t => if decide (a = b) then CutPrefix t p else None
  | String _ _, EmptyString => None
  end.

(** [strings.HasPrefix]. *)
Definition HasPrefix (s prefix : string) : bool :=
  match CutPrefix s prefix with
  | Some _ => true
  | None => false
  end.

(** [strings.Contains]: [substr] occurs somewhere in [s]. *)
Fixpoint Contains (s substr : string) : bool :=
  HasPrefix s substr
  || match s with
     | EmptyString => false
     | String _ t => Contains t substr
     end.

(** [strings.Cut]: the text before and after the first occurrence of [sep]. *)
Fixpoint Cut (s sep : string) : option (string * string) :=
  match CutPrefix s sep with
  | Some after => Some (EmptyString, after)
  | None =>
      match s with
      | EmptyString => None
      | String c t =>
          match Cut t sep with
          | Some (before, after) => Some (String c before, after)
          | None => None
          end
      end
  end.

(** The loop of [strings.genSplit] for a non-empty separator: at most
    [S pieces] substrings, the last one being the unsplit remainder. *)
Fixpoint genSplit (s sep : string) (pieces : nat) : list string :=
  match pieces with
  | O => [s]
  | S k =>
      match Cut s sep with
      | Some (before, after) => before :: genSplit after sep k
      | None => [s]
      end
  end.

(** [strings.explode]: one string per byte, the last holding the remainder
    when [pieces] runs out (bytes and code points agree on ASCII text). *)
Fixpoint explode (s : string) (pieces : nat) : list string :=
  match s with
  | EmptyString => []
  | String c t =>
      match pieces with
      | O => [s]
      | S k => String c EmptyString :: explode t k
      end
  end.

(** [strings.SplitN(s, sep, n)]: [n = 0] gives no substrings, [n < 0] all of
    them, [n > 0] at most [n]. *)
Definition SplitN (s sep : string) (n : Z) : list string :=
  if n =? 0 then []
  else
    let pieces :=
      if n <? 0 then String.length s else Nat.pred (Z.to_nat n) in
    match sep with
    | EmptyString => explode s pieces
    | _ => genSplit s sep pieces
    end.

(** [strings.Join]. *)
Fixpoint Join (elems : list string) (sep : string) : string :=
  match elems with
  | [] => EmptyString
  | [e] => e
  | e :: rest => e +:+ sep +:+ Join rest sep
  end.

(** ** Package [github.com/go-msvc/errors] and the Go [error] interface *)

Module errors.

(** Modelled from the spec: the package [github.com/go-msvc/errors]
    ([Errorf], [Errorc], [Wrapf], the interface [IError] and its method
    [Code]) is imported by [server.go] and is not part of the sources.  The
    spec describes its values as structured errors
    [{ message; statusCode: optional }] whose wrapping keeps the status code
    of the wrapped error.  A status code that is unset is the zero [int].

    [error] holds the error values the dispatcher can meet: the sentinel
    [io.EOF], which the dispatcher compares by identity, any other error
    that does not implement [IError] (those of [encoding/json] and of
    handlers and validators that use plain Go errors), and the structured
    errors of this package. *)
Inductive error : Type :=
| EOF
| Foreign (msg : string)
| Structured (statusCode : Z) (message : string) (parent : option error).

(** Modelled from the spec: the interface [IError], through the type
    assertion [err.(errors.IError)] that the dispatcher makes; the structured
    errors are the ones that carry a status code. *)
Definition IError (err : error) : bool :=
  match err with
  | Structured _ _ _ => true
  | _ => false
  end.

(** Modelled from the spec: [IError.Code()], the status code of a structured
    error, zero when it is unset. *)
Definition Code (err : error) : Z :=
  match err with
  | Structured c _ _ => c
  | _ => 0
  end.

(** Modelled from the spec: [Error()], the textual message; a wrapping
    error gives its own context first and then the message of its cause. *)
Fixpoint Error (err : error) : string :=
  match err with
  | EOF => "EOF"
  | Foreign msg => msg
  | Structured _ msg None => msg
  | Structured _ msg (Some cause) => msg +:+ " because " +:+ Error cause
  end.

(** Modelled from the spec: the verb [%+v] applied to an error, the full
    message.  The source positions that the structured errors add in this
    form are not tracked. *)
Definition verbose (err : error) : string := Error err.

(** Modelled from the spec: [errors.Errorf] once its format has been
    expanded into [msg]; the error has no status code. *)
Definition Errorf (msg : string) : error := Structured 0 msg None.

(** Modelled from the spec: [errors.Errorc(code, msg)], a structured error
    with status code [code]. *)
Definition Errorc (code : Z) (msg : string) : error := Structured code msg None.

(** Modelled from the spec: [errors.Wrapf(err, ...)] once its format has
    been expanded into [msg]; the wrapping keeps the status code of [err]. *)
Definition Wrapf (err : error) (msg : string) : error :=
  Structured (Code err) msg (Some err).

(** The comparison [err == io.EOF]. *)
Definition is_EOF (err : error) : bool :=
  match err with
  | EOF => true
  | _ => false
  end.

End errors.

Abbreviation error := errors.error.

(** ** Package [net/http] *)

Module http.

Definition StatusOK : Z := 200.
Definition StatusBadRequest : Z := 400.
Definition StatusNotFound : Z := 404.
Definition StatusInternalServerError : Z := 500.

(** [http.StatusText]: the text of a status code, empty when the code is
    unknown. *)
Definition StatusText (code : Z) : string :=
  match code with
  | 100 => "Continue"
  | 101 => "Switching Protocols"
  | 102 => "Processing"
  | 103 => "Early Hints"
  | 200 => "OK"
  | 201 => "Created"
  | 202 => "Accepted"
  | 203 => "Non-Authoritative Information"
  | 204 => "No Content"
  | 205 => "Reset Content"
  | 206 => "Partial Content"
  | 207 => "Multi-Status"
  | 208 => "Already Reported"
  | 226 => "IM Used"
  | 300 => "Multiple Choices"
  | 301 => "Moved Permanently"
  | 302 => "Found"
  | 303 => "See Other"
  | 304 => "Not Modified"
  | 305 => "Use Proxy"
  | 307 => "Temporary Redirect"
  | 308 => "Permanent Redirect"
  | 400 => "Bad Request"
  | 401 => "Unauthorized"
  | 402 => "Payment Required"
  | 403 => "Forbidden"
  | 404 => "Not Found"
  | 405 => "Method Not Allowed"
  | 406 => "Not Acceptable"
  | 407 => "Proxy Authentication Required"
  | 408 => "Request Timeout"
  | 409 => "Conflict"
  | 410 => "Gone"
  | 411 => "Length Required"
  | 412 => "Precondition Failed"
  | 413 => "Request Entity Too Large"
  | 414 => "Request URI Too Long"
  | 415 => "Unsupported Media Type"
  | 416 => "Requested Range Not Satisfiable"
  | 417 => "Expectation Failed"
  | 418 => "I'm a teapot"
  | 421 => "Misdirected Request"
  | 422 => "Unprocessable Entity"
  | 423 => "Locked"
  | 424 => "Failed Dependency"
  | 425 => "Too Early"
  | 426 => "Upgrade Required"
  | 428 => "Precondition Required"
  | 429 => "Too Many Requests"
  | 431 => "Request Header Fields Too Large"
  | 451 => "Unavailable For Legal Reasons"
  | 500 => "Internal Server Error"
  | 501 => "Not Implemented"
  | 502 => "Bad Gateway"
  | 503 => "Service Unavailable"
  | 504 => "Gateway Timeout"
  | 505 => "HTTP Version Not Supported"
  | 506 => "Variant Also Negotiates"
  | 507 => "Insufficient Storage"
  | 508 => "Loop Detected"
  | 510 => "Not Extended"
  | 511 => "Network Authentication Required"
  | _ => ""
  end.

(** The part of [*http.Request] the dispatcher reads: [Method], [URL.Path]
    and the bytes of [Body]. *)
Record Request := { Method : string; Path : string; Body : string }.

(** An [http.ResponseWriter] as the contract of the interface describes
    it.  [header] is the map [Header()] hands out.  The first [WriteHeader]
    sends the status line with the header map as it is then ([status],
    [sent]); later ones are ignored, as are later changes of the map.
    [Write] sends [StatusOK] first when no status has been sent.  Interim
    [1xx] responses are not told apart from final ones. *)
Record ResponseWriter := {
  header : gmap string string;
  wroteHeader : bool;
  status : Z;
  sent : gmap string string;
  body : string
}.

(** The writer the transport hands to the handler of a new request. *)
Definition NewResponse : ResponseWriter :=
  {| header := ∅; wroteHeader := false; status := 0; sent := ∅; body := "" |}.

(** [w.Header().Set(key, value)]. *)
Definition HeaderSet (key value : string) (w : ResponseWriter) : ResponseWriter :=
  {| header := <[key := value]> (header w); wroteHeader := wroteHeader w;
     status := status w; sent := sent w; body := body w |}.

(** [w.WriteHeader(code)]. *)
Definition WriteHeader (code : Z) (w : ResponseWriter) : ResponseWriter :=
  if wroteHeader w then w
  else {| header := header w; wroteHeader := true;
          status := code; sent := header w; body := body w |}.

(** [w.Write(data)]. *)
Definition Write (data : string) (w : ResponseWriter) : ResponseWriter :=
  let w := if wroteHeader w then w else WriteHeader StatusOK w in
  {| header := header w; wroteHeader := wroteHeader w;
     status := status w; sent := sent w; body := body w +:+ data |}.

(** The line feed that [fmt.Fprintln] appends. *)
Definition newline : string := String (Ascii.ascii_of_nat 10) EmptyString.

(** [http.Error(w, error, code)]: a plain text reply with the given
    status. *)
Definition Error (w : ResponseWriter) (error : string) (code : Z) : ResponseWriter :=
  let w := HeaderSet "Content-Type" "text/plain; charset=utf-8" w in
  let w := HeaderSet "X-Content-Type-Options" "nosniff" w in
  let w := WriteHeader code w in
  Write (error +:+ newline) w.

(** What the transport does when the handler has returned: a handler that
    sent no status gets [StatusOK]. *)
Definition finishRequest (w : ResponseWriter) : ResponseWriter :=
  if wroteHeader w then w else WriteHeader StatusOK w.

End http.

(** ** Package [encoding/json] *)

(** [json.Marshal] on the dynamic values of a service: the encoding, or the
    error for a value that has none. *)
Class JSON (Value : Type) := Marshal : Value → string + error.

(** White space between JSON values. *)
Definition isSpace (c : Ascii.ascii) : bool :=
  let n := Ascii.nat_of_ascii c in
  ((n =? 32) || (n =? 9) || (n =? 13) || (n =? 10))%nat.

Fixpoint blank (s : string) : bool :=
  match s with
  | EmptyString => true
  | String c t => isSpace c && blank t
  end.

(** ** Package [github.com/go-msvc/utils/ms]: the collaborators *)

Module ms.
Section Interfaces.
Context {Value Ctx : Type}.

(** The [reflect.Type] that [Oper.ReqType()] returns, with what the
    dispatcher asks of it: its name (verb [%v]), the zero value of a new
    instance, how [encoding/json] decodes a body that holds more than
    white space into a new instance (the instance afterwards and the
    error), and the [ms.Validator] capability of a pointer to the type,
    which checks the instance and leaves it as it is. *)
Record Type_ := {
  Name : string;
  Zero : Value;
  Unmarshal : string → Value * option error;
  Validator : option (Value → option error)
}.

(** [ms.Oper]; [None] is the nil interface value. *)
Record Oper := {
  ReqType : option Type_;
  Handle : Ctx → option Value → option Value * option error
}.

(** [ms.MicroService]: [GetOper] is the method [Oper(name)]. *)
Record MicroService := {
  GetOper : string → option Oper;
  OperNames : list string;
  NewContext : Ctx
}.
End Interfaces.
Global Arguments Type_ : clear implicits.
Global Arguments Oper : clear implicits.
Global Arguments MicroService : clear implicits.
End ms.

(** [Decoder.Decode] of [encoding/json] on a new instance of type [t] and a whole
    body: input without a value ends with [io.EOF] and leaves the instance
    untouched. *)
Definition Decode {Value : Type} (t : ms.Type_ Value) (body : string)
  : Value * option error :=
  if blank body then (ms.Zero t, Some errors.EOF) else ms.Unmarshal t body.

(** ** [Config] *)

Record Config := { Addr : string; Port : Z }.

(** [func (c Config) Validate() error]; [None] is the nil error. *)
Definition Validate (c : Config) : option error :=
  if decide (Addr c = "") then Some (errors.Errorf "missing addr")
  else if Port c =? 0 then Some (errors.Errorf "missing port")
  else if Port c <? 0 then Some (errors.Errorf ("negative port:" +:+ pretty (Port c)))
  else None.

(** An error message mentions a text. *)
Definition mentions (err : option error) (text : string) : bool :=
  match err with
  | Some e => Contains (errors.Error e) text
  | None => false
  end.

(** ** [server] *)

Section Server.
Context {Value Ctx : Type} `{!JSON Value}.

Record server := { ms : ms.MicroService Value Ctx; addr : string }.

(** [func (c Config) Create(ms ms.MicroService) (ms.Server, error)]. *)
Definition Create (c : Config) (m : ms.MicroService Value Ctx)
  : server * option error :=
  ({| ms := m; addr := Addr c +:+ ":" +:+ pretty (Port c) |}, None).

(** The calls that [ServeHTTP] makes to its collaborators, in the order in
    which it makes them. *)
Inductive event : Type :=
| CallOper (name : string)
| CallOperNames
| CallDecode (body : string)
| CallValidate (req : Value)
| CallNewContext
| CallHandle (operName : string) (ctx : Ctx) (req : option Value)
| CallMarshal (res : Value).

(** The response writer and the calls made so far. *)
Record state := { httpRes : http.ResponseWriter; calls : list event }.

Definition call (e : event) (st : state) : state :=
  {| httpRes := httpRes st; calls := calls st ++ [e] |}.

Definition reply (f : http.ResponseWriter → http.ResponseWriter) (st : state) : state :=
  {| httpRes := f (httpRes st); calls := calls st |}.

(** The block of [ServeHTTP] that sets [operName] from [httpReq.URL.Path],
    or [err] when the path is refused. *)
Definition operNameOf (path : string) : error + string :=
  let names := SplitN path "/" 2 in
  if (length names <? 2)%nat
     || negb (String.length (nth 0 names "") =? 0)%nat
     || (String.length (nth 1 names "") =? 0)%nat
  then inl (errors.Errorc http.StatusBadRequest "URL does not start with /<operName>")
  else inr (nth 1 names "").

(** The test [err != nil && err != io.EOF]. *)
Definition genuine (err : option error) : option error :=
  match err with
  | Some e => if errors.is_EOF e then None else Some e
  | None => None
  end.

(** The block of [ServeHTTP] that sets [req] for an operation with a
    request type: decode the body into a new instance, validate it when the
    type has the capability, and read the instance. *)
Definition requestOf (t : ms.Type_ Value) (body : string) (st : state)
  : (error + Value) * state :=
  let st := call (CallDecode body) st in
  let '(instance, err) := Decode t body in
  match genuine err with
  | Some e =>
      (inl (errors.Errorc http.StatusBadRequest
              ("failed to decode body into " +:+ ms.Name t +:+ ": "
               +:+ errors.verbose e)), st)
  | None =>
      match ms.Validator t with
      | Some validate =>
          let st := call (CallValidate instance) st in
          match validate instance with
          | Some e =>
              (inl (errors.Errorc http.StatusBadRequest
                      ("invalid request: " +:+ errors.verbose e)), st)
          | None => (inr instance, st)
          end
      | None => (inr instance, st)
      end
  end.

(** The body of [ServeHTTP] up to its return: the value of [err] at that
    point and the state reached. *)
Definition ServeHTTP_body (s : server) (httpReq : http.Request) (st : state)
  : option error * state :=
  match operNameOf (http.Path httpReq) with
  | inl err => (Some err, st)
  | inr operName =>
      let st := call (CallOper operName) st in
      match ms.GetOper (ms s) operName with
      | None =>
          let st := call CallOperNames st in
          (Some (errors.Errorc http.StatusNotFound
                   ("unknown operation " +:+ operName +:+ " != "
                    +:+ Join (ms.OperNames (ms s)) "|")), st)
      | Some oper =>
          let '(decoded, st) :=
            match ms.ReqType oper with
            | Some t =>
                match requestOf t (http.Body httpReq) st with
                | (inl err, st) => (inl err, st)
                | (inr req, st) => (inr (Some req), st)
                end
            | None => (inr None, st)
            end in
          match decoded with
          | inl err => (Some err, st)
          | inr req =>
              let st := call CallNewContext st in
              let ctx := ms.NewContext (ms s) in
              let st := call (CallHandle operName ctx req) st in
              match ms.Handle oper ctx req with
              | (_, Some err) =>
                  (Some (errors.Wrapf err (operName +:+ " handler failed")), st)
              | (None, None) => (None, st)
              | (Some res, None) =>
                  let st := call (CallMarshal res) st in
                  let '(jsonRes, err) :=
                    match Marshal res with
                    | inl encoding => (encoding, None)
                    | inr e => (EmptyString, Some e)
                    end in
                  let st := reply (http.HeaderSet "Content-Type" "application/json") st in
                  let st := reply (http.Write jsonRes) st in
                  (err, st)
              end
          end
      end
  end.

(** The status that the deferred function of [ServeHTTP] settles on. *)
Definition errCodeOf (err : error) : Z :=
  if errors.IError err then
    if decide (http.StatusText (errors.Code err) = "")
    then http.StatusInternalServerError
    else errors.Code err
  else http.StatusInternalServerError.

(** The deferred function of [ServeHTTP]: the one place where an error
    becomes a reply. *)
Definition deferred (err : option error) (w : http.ResponseWriter)
  : http.ResponseWriter :=
  match err with
  | Some e => http.Error w (errors.Error e) (errCodeOf e)
  | None => w
  end.

(** [func (s server) ServeHTTP(httpRes http.ResponseWriter, httpReq *http.Request)]. *)
Definition ServeHTTP (s : server) (w : http.ResponseWriter) (httpReq : http.Request)
  : state :=
  let '(err, st) := ServeHTTP_body s httpReq {| httpRes := w; calls := [] |} in
  reply (deferred err) st.

(** What [Serve], through [http.ListenAndServe], does with one request: a
    new writer, the handler, and the default status when the handler sent
    none. *)
Definition roundTrip (s : server) (httpReq : http.Request) : state :=
  reply http.finishRequest (ServeHTTP s http.NewResponse httpReq).

End Server.

(** ** The words of the specification *)

(** The first segment of a path: the text between the leading separator and
    the next one, for a path that starts with the separator. *)
Definition firstSegment (path : string) : option string :=
  match CutPrefix path "/" with
  | Some rest =>
      match Cut rest "/" with
      | Some (segment, _) => Some segment
      | None => Some rest
      end
  | None => None
  end.

Section Counting.
Context {Value Ctx : Type}.

Definition isNewContext (e : @event Value Ctx) : bool :=
  match e with
  | CallNewContext => true
  | _ => false
  end.

Definition isHandle (e : @event Value Ctx) : bool :=
  match e with
  | CallHandle _ _ _ => true
  | _ => false
  end.

Definition isRegistry (e : @event Value Ctx) : bool :=
  match e with
  | CallOper _ | CallOperNames => true
  | _ => false
  end.

(** How often a kind of call was made. *)
Definition times (kind : @event Value Ctx → bool) (tr : list event) : nat :=
  length (List.filter kind tr).

Definition isMarshal (e : @event Value Ctx) : bool :=
  match e with
  | CallMarshal _ => true
  | _ => false
  end.

(** The place of a call in the text of [ServeHTTP], from top to bottom. *)
Definition stage (e : @event Value Ctx) : nat :=
  match e with
  | CallOper _ => 1
  | CallOperNames => 2
  | CallDecode _ => 3
  | CallValidate _ => 4
  | CallNewContext => 5
  | CallHandle _ _ _ => 6
  | CallMarshal _ => 7
  end.
End Counting.

(** ** A small service to run the dispatcher on *)

Module demo.

(** The values of the service: a flag, a counter, and a channel, for which
    JSON has no encoding. *)
Inductive value : Type := Flag (b : bool) | Count (n : Z) | Chan.

#[global] Instance value_JSON : JSON value := λ v,
  match v with
  | Flag true => inl "true"
  | Flag false => inl "false"
  | Count n => inl (pretty n)
  | Chan => inr (errors.Foreign "json: unsupported type: chan int")
  end.

Definition parseFlag (body : string) : value * option error :=
  if decide (body = "true") then (Flag true, None)
  else if decide (body = "false") then (Flag false, None)
  else (Flag false, Some (errors.Foreign "invalid character looking for beginning of value")).

(** A request type without validation and one that refuses an unset flag. *)
Definition flag : ms.Type_ value :=
  {| ms.Name := "demo.Flag"; ms.Zero := Flag false;
     ms.Unmarshal := parseFlag; ms.Validator := None |}.

Definition setFlag : ms.Type_ value :=
  {| ms.Name := "demo.SetFlag"; ms.Zero := Flag false;
     ms.Unmarshal := parseFlag;
     ms.Validator := Some (λ v,
       match v with
       | Flag true => None
       | _ => Some (errors.Errorf "flag is not set")
       end) |}.

Definition operations : list (string * ms.Oper value unit) :=
  [ ("ping", {| ms.ReqType := None; ms.Handle := λ _ _, (Some (Flag true), None) |});
    ("echo", {| ms.ReqType := Some flag; ms.Handle := λ _ req, (req, None) |});
    ("confirm", {| ms.ReqType := Some setFlag; ms.Handle := λ _ req, (req, None) |});
    ("forget", {| ms.ReqType := None; ms.Handle := λ _ _, (None, None) |});
    ("create", {| ms.ReqType := None;
                  ms.Handle := λ _ _, (None, Some (errors.Errorc 409 "already exists")) |});
    ("crash", {| ms.ReqType := None;
                 ms.Handle := λ _ _, (None, Some (errors.Foreign "out of luck")) |});
    ("watch", {| ms.ReqType := None; ms.Handle := λ _ _, (Some Chan, None) |}) ].

Definition registry : gmap string (ms.Oper value unit) := list_to_map operations.

Definition service : ms.MicroService value unit :=
  {| ms.GetOper := λ name, registry !! name;
     ms.OperNames := operations.*1;
     ms.NewContext := () |}.

Definition srv : server := (Create {| Addr := "localhost"; Port := 8080 |} service).1.

Definition get (path : string) : http.Request :=
  {| http.Method := "GET"; http.Path := path; http.Body := "" |}.

Definition post (path body : string) : http.Request :=
  {| http.Method := "POST"; http.Path := path; http.Body := body |}.

End demo.

(** * Properties *)

Example Validate_ok : Validate {| Addr := "localhost"; Port := 8080 |} = None.
Proof. reflexivity. Qed.

Example Validate_negative :
  Validate {| Addr := "localhost"; Port := -5 |}
  = Some (errors.Errorf "negative port:-5").
Proof. vm_compute. reflexivity. Qed.

Example ping_roundTrip :
  let w := httpRes (roundTrip demo.srv (demo.get "/ping")) in
  http.status w = 200 ∧ http.body w = "true"
  ∧ http.sent w !! "Content-Type" = Some "application/json".
Proof. vm_compute. done. Qed.

(** ** Strings *)

Lemma app_cons (c : Ascii.ascii) (s t : string) :
  String c s +:+ t = String c (s +:+ t).
Proof. reflexivity. Qed.

Lemma app_empty_l (s : string) : "" +:+ s = s.
Proof. reflexivity. Qed.

Lemma app_assoc' (a b c : string) : (a +:+ b) +:+ c = a +:+ b +:+ c.
Proof. induction a as [|x a IH]; [done|]. by rewrite !app_cons, IH. Qed.

Lemma CutPrefix_app (p s : string) : CutPrefix (p +:+ s) p = Some s.
Proof.
  induction p as [|c p IH]; [by destruct s|].
  rewrite app_cons. simpl. by rewrite decide_True.
Qed.

Lemma CutPrefix_Some (s p rest : string) :
  CutPrefix s p = Some rest → s = p +:+ rest.
Proof.
  revert s. induction p as [|c p IH]; intros s H.
  - destruct s; simplify_eq/=; done.
  - destruct s as [|b t]; simplify_eq/=.
    case_decide; simplify_eq/=. rewrite app_cons. f_equal. by apply IH.
Qed.

Lemma HasPrefix_app (p s : string) : HasPrefix (p +:+ s) p = true.
Proof. unfold HasPrefix. by rewrite CutPrefix_app. Qed.

Lemma Contains_unfold (s substr : string) :
  Contains s substr
  = HasPrefix s substr
    || match s with
       | EmptyString => false
       | String _ t => Contains t substr
       end.
Proof. by destruct s. Qed.

Lemma Contains_prefix (p s : string) : Contains (p +:+ s) p = true.
Proof. rewrite Contains_unfold, HasPrefix_app. done. Qed.

Lemma Contains_app_r (a s substr : string) :
  Contains s substr = true → Contains (a +:+ s) substr = true.
Proof.
  intros H. induction a as [|c a IH]; [done|].
  rewrite app_cons, Contains_unfold, IH. apply orb_true_r.
Qed.

Lemma Contains_infix (a substr b : string) :
  Contains (a +:+ substr +:+ b) substr = true.
Proof. apply Contains_app_r, Contains_prefix. Qed.

(** ** The path block *)

Lemma SplitN_slash_2 (path : string) :
  SplitN path "/" 2
  = match Cut path "/" with
    | Some (before, after) => [before; after]
    | None => [path]
    end.
Proof. unfold SplitN. simpl. by repeat case_match. Qed.

Lemma Cut_slash_empty (path after : string) :
  Cut path "/" = Some ("", after) ↔ path = "/" +:+ after.
Proof.
  split.
  - destruct path as [|c t]; simpl; [done|].
    case_decide; simpl.
    + intros; simplify_eq. done.
    + repeat case_match; intros; simplify_eq.
  - intros ->. rewrite app_cons, app_empty_l. done.
Qed.

(** The paths that the dispatcher accepts, and the name it takes from them:
    everything after the leading separator. *)
Lemma operNameOf_inr (path name : string) :
  operNameOf path = inr name ↔ path = "/" +:+ name ∧ name ≠ "".
Proof.
  unfold operNameOf. rewrite SplitN_slash_2.
  destruct (Cut path "/") as [[before after]|] eqn:HC; simpl.
  - destruct before as [|c before]; simpl.
    + apply Cut_slash_empty in HC as ->.
      destruct after as [|c after]; simpl.
      * split; [done|]. intros [H Hne].
        apply (inj (String.app "/")) in H. by subst.
      * split; [intros; simplify_eq; done|]. intros [H _].
        apply (inj (String.app "/")) in H. by subst.
    + split; [done|]. intros [-> _].
      rewrite app_cons, app_empty_l in HC. simplify_eq/=.
  - split; [done|]. intros [-> _].
    rewrite app_cons, app_empty_l in HC. simplify_eq/=.
Qed.

Lemma operNameOf_inl (path : string) (err : error) :
  operNameOf path = inl err
  → err = errors.Errorc http.StatusBadRequest "URL does not start with /<operName>".
Proof. unfold operNameOf. case_match; intros; simplify_eq; done. Qed.

(** ** The reply to an error *)


Lemma errCodeOf_default (e : error) :
  errors.IError e = false ∨ http.StatusText (errors.Code e) = ""
  → errCodeOf e = http.StatusInternalServerError.
Proof.
  unfold errCodeOf. intros [->|H]; [done|].
  destruct (errors.IError e); [|done]. by rewrite decide_True.
Qed.

Lemma Wrapf_Code (e : error) (msg : string) :
  errors.Code (errors.Wrapf e msg) = errors.Code e.
Proof. done. Qed.

Lemma Wrapf_Error (e : error) (msg : string) :
  errors.Error (errors.Wrapf e msg) = msg +:+ " because " +:+ errors.Error e.
Proof. done. Qed.

(** On a writer that has sent nothing, the deferred function fixes the
    status, and the body is the message and a line feed. *)
Lemma deferred_fresh (e : error) (w : http.ResponseWriter) :
  http.wroteHeader w = false →
  let w' := deferred (Some e) w in
  http.wroteHeader w' = true
  ∧ http.status w' = errCodeOf e
  ∧ http.body w' = http.body w +:+ errors.Error e +:+ http.newline
  ∧ http.sent w' !! "Content-Type" = Some "text/plain; charset=utf-8".
Proof.
  intros Hw. unfold deferred, http.Error, http.Write, http.WriteHeader. simpl.
  rewrite Hw. simpl. repeat split.
  rewrite lookup_insert_ne by done. by rewrite lookup_insert_eq.
Qed.

(** Once the status has been sent, the deferred function can only add to
    the body. *)
Lemma deferred_late (e : error) (w : http.ResponseWriter) :
  http.wroteHeader w = true →
  let w' := deferred (Some e) w in
  http.status w' = http.status w
  ∧ http.sent w' = http.sent w
  ∧ http.body w' = http.body w +:+ errors.Error e +:+ http.newline.
Proof.
  intros Hw. unfold deferred, http.Error, http.Write, http.WriteHeader. simpl.
  rewrite Hw. simpl. by rewrite Hw.
Qed.

(** A path that is refused is answered without any call to a collaborator. *)
Lemma refused_path_reply {Value Ctx : Type} `{!JSON Value}
    (s : @server Value Ctx) (httpReq : http.Request) (err : error) :
  operNameOf (http.Path httpReq) = inl err →
  let st := ServeHTTP s http.NewResponse httpReq in
  calls st = []
  ∧ http.status (httpRes st) = http.StatusBadRequest
  ∧ http.body (httpRes st) = "URL does not start with /<operName>" +:+ http.newline.
Proof.
  intros H. pose proof (operNameOf_inl _ _ H) as ->.
  unfold ServeHTTP, ServeHTTP_body. rewrite H. done.
Qed.

(** ** [Config.Validate] *)

(** C10, as stated, does not hold: with an empty [Addr] and a zero [Port]
    the error is the one about the address, and it does not mention
    "missing port". *)
Lemma C10_counterexample :
  let c := {| Addr := ""; Port := 0 |} in
  ¬ (Port c = 0 → mentions (Validate c) "missing port" = true).
Proof. intros c H. specialize (H eq_refl). vm_compute in H. discriminate. Qed.

(** C10, amended: [Validate] returns nil exactly when [Addr] is not empty and
    [Port] is positive.  The checks run in order: an empty [Addr] gives an
    error that mentions "missing addr"; with a non-empty [Addr], a zero [Port]
    gives one that mentions "missing port" and a negative [Port] one that
    mentions "negative port". *)
Theorem C10_Validate (c : Config) :
  (Validate c = None ↔ Addr c ≠ "" ∧ 0 < Port c)
  ∧ (Addr c = "" → mentions (Validate c) "missing addr" = true)
  ∧ (Addr c ≠ "" → Port c = 0 → mentions (Validate c) "missing port" = true)
  ∧ (Addr c ≠ "" → Port c < 0 → mentions (Validate c) "negative port" = true).
Proof.
  unfold Validate. destruct c as [a p]; simpl.
  destruct (decide (a = "")) as [->|Ha];
    [|destruct (Z.eqb_spec p 0) as [->|Hp];
      [|destruct (Z.ltb_spec p 0) as [Hneg|Hpos]]];
    repeat split; try done; try lia;
    try (intros [? ?]; first [done | lia]).
Qed.

Lemma C10_Validate_witness :
  let c := {| Addr := "0.0.0.0"; Port := -80 |} in
  Addr c ≠ "" ∧ Port c < 0 ∧ mentions (Validate c) "negative port" = true.
Proof.
  intros c. split; [done|]. split; [done|].
  apply (C10_Validate c); done.
Defined.

(** ** The dispatcher *)

Section Dispatcher.
Context {Value Ctx : Type} `{!JSON Value}.
Implicit Types (s : @server Value Ctx) (httpReq : http.Request).

(** Unfold one run up to the reply. *)
Local Ltac run :=
  cbn beta iota zeta; unfold reply, call;
  cbn [httpRes calls fst snd app].


(** Every way through [ServeHTTP]. *)
Local Ltac paths :=
  unfold ServeHTTP, ServeHTTP_body, requestOf; repeat case_match; simplify_eq; run.

(** C3, amended: the context factory is called exactly as often as the
    handler, at most once, and a call of the handler comes straight after
    the call of the factory.  So a request that reaches its handler has one
    call of the factory, just before the handler, and a request that fails
    at parsing, lookup, decoding or validation has none. *)
Theorem C3_NewContext_before_Handle s (w : http.ResponseWriter) httpReq :
  let tr := calls (ServeHTTP s w httpReq) in
  times isNewContext tr = times isHandle tr
  ∧ (times isHandle tr ≤ 1)%nat
  ∧ ∀ before operName ctx req after,
      tr = before ++ CallHandle operName ctx req :: after →
      ∃ earlier, before = earlier ++ [CallNewContext].
Proof.
  paths; (split; [reflexivity|]); (split; [cbv; lia|]);
    intros before operName ctx' req' after Heq;
    repeat (destruct before as [|? before]; simplify_eq/=);
    first [ by eexists [] | by eexists [_] | by eexists [_; _]
          | by eexists [_; _; _] ].
Qed.

Local Ltac paths_in H :=
  unfold ServeHTTP, ServeHTTP_body, requestOf in *; repeat case_match; simplify_eq;
  cbn beta iota zeta in *; unfold reply, call in *;
  cbn [httpRes calls fst snd app] in *;
  simpl in H;
  repeat match goal with
         | H' : _ ∨ _ |- _ => destruct H'
         | H' : False |- _ => destruct H'
         end;
  simplify_eq;
  repeat match goal with
         | H1 : ?x = _, H2 : ?x = _ |- _ => rewrite H1 in H2; simplify_eq
         end;
  try done.

Lemma genuine_not_EOF (e : error) : e ≠ errors.EOF → genuine (Some e) = Some e.
Proof. by destruct e. Qed.




(** What the dispatcher does with a response that has no JSON encoding:
    the header and the empty encoding are written before the error is
    looked at, so the status is the default one of [Write]. *)
Lemma marshal_failure_reply s httpReq (name : string)
    (oper : ms.Oper Value Ctx) (ctx : Ctx) (req : option Value)
    (res : Value) (e : error) :
  ms.GetOper (ms s) name = Some oper →
  In (CallHandle name ctx req) (calls (ServeHTTP s http.NewResponse httpReq)) →
  ms.Handle oper ctx req = (Some res, None) →
  Marshal res = inr e →
  let w := httpRes (ServeHTTP s http.NewResponse httpReq) in
  http.status w = http.StatusOK
  ∧ http.sent w !! "Content-Type" = Some "application/json"
  ∧ http.body w = errors.Error e +:+ http.newline.
Proof. intros Hoper Hcall Hres Henc. paths_in Hcall. Qed.

(** A handler error without a known status code is answered with 500. *)
Lemma handler_error_default_status s httpReq (name : string)
    (oper : ms.Oper Value Ctx) (ctx : Ctx) (req res : option Value) (e : error) :
  ms.GetOper (ms s) name = Some oper →
  In (CallHandle name ctx req) (calls (ServeHTTP s http.NewResponse httpReq)) →
  ms.Handle oper ctx req = (res, Some e) →
  http.StatusText (errors.Code e) = "" →
  http.status (httpRes (ServeHTTP s http.NewResponse httpReq))
  = http.StatusInternalServerError.
Proof.
  intros Hoper Hcall Hres Hcode. paths_in Hcall.
  all: match goal with
       | |- context [deferred (Some ?e) ?w] =>
           destruct (deferred_fresh e w eq_refl) as (_ & -> & _)
       end.
  all: apply errCodeOf_default; right; by rewrite Wrapf_Code.
Qed.
End Dispatcher.

(** Where the name taken from the path is the first segment: a path with a
    single segment. *)
Lemma operNameOf_single_segment (name : string) :
  name ≠ "" → Cut name "/" = None →
  operNameOf ("/" +:+ name) = inr name ∧ firstSegment ("/" +:+ name) = Some name.
Proof.
  intros Hne Hcut. split; [by apply operNameOf_inr|].
  unfold firstSegment. by rewrite CutPrefix_app, Hcut.
Qed.

(** ** Runs of the small service *)


(** C3, as stated, does not hold: a request that fails at parsing, at
    lookup, at decoding or at validation is answered without any call of the
    context factory. *)
Lemma C3_counterexample :
  let newContexts httpReq :=
    times isNewContext (calls (ServeHTTP demo.srv http.NewResponse httpReq)) in
  newContexts (demo.get "ping") ≠ 1%nat
  ∧ newContexts (demo.get "/missing") ≠ 1%nat
  ∧ newContexts (demo.post "/echo" "maybe") ≠ 1%nat
  ∧ newContexts (demo.post "/confirm" "false") ≠ 1%nat.
Proof. vm_compute. repeat split; discriminate. Qed.

Lemma C3_NewContext_before_Handle_witness :
  let tr := calls (ServeHTTP demo.srv http.NewResponse (demo.get "/ping")) in
  tr = [CallOper "ping"; CallNewContext]
       ++ CallHandle "ping" () None :: [CallMarshal (demo.Flag true)]
  ∧ ∃ earlier : list (@event demo.value unit),
      [CallOper "ping"; CallNewContext] = earlier ++ [CallNewContext].
Proof.
  intros tr.
  assert (Htr : tr = [CallOper "ping"; CallNewContext]
                     ++ CallHandle "ping" () None :: [CallMarshal (demo.Flag true)])
    by (vm_compute; reflexivity).
  split; [exact Htr|].
  pose proof (C3_NewContext_before_Handle demo.srv http.NewResponse (demo.get "/ping"))
    as (_ & _ & Hbefore).
  exact (Hbefore _ _ _ _ _ Htr).
Defined.





(** ** Where the dispatcher departs from its description *)

(** C1, at a response that has no JSON encoding: the error of [json.Marshal]
    does reach the deferred function, which settles on status 500, but by
    then [Write] has sent the default status.  The reply has status 200 and
    the header [Content-Type: application/json], and the message of the error
    is its body. *)
Theorem C1_marshal_failure_reply :
  let httpReq := demo.get "/watch" in
  let e := errors.Foreign "json: unsupported type: chan int" in
  let st := ServeHTTP demo.srv http.NewResponse httpReq in
  (ServeHTTP_body demo.srv httpReq {| httpRes := http.NewResponse; calls := [] |}).1 = Some e
  ∧ errCodeOf e = 500
  ∧ http.status (httpRes st) = 200
  ∧ http.sent (httpRes st) !! "Content-Type" = Some "application/json"
  ∧ http.body (httpRes st) = "json: unsupported type: chan int" +:+ http.newline.
Proof. vm_compute. done. Qed.

(** C5, at the same request: the error that reaches the deferred function
    has no status code, and the client still sees status 200, not 500. *)
Theorem C5_unset_code_reply :
  let httpReq := demo.get "/watch" in
  ∃ e,
    (ServeHTTP_body demo.srv httpReq {| httpRes := http.NewResponse; calls := [] |}).1 = Some e
    ∧ errors.IError e = false
    ∧ http.StatusText (errors.Code e) = ""
    ∧ http.status (httpRes (roundTrip demo.srv httpReq)) = 200
    ∧ http.status (httpRes (roundTrip demo.srv httpReq))
      ≠ http.StatusInternalServerError.
Proof.
  eexists. split; [vm_compute; reflexivity|]. vm_compute. repeat split. discriminate.
Qed.

(** C2, at a path with two segments: the first segment of [/ping/now] is
    [ping], a registered operation, but the dispatcher takes [ping/now] for
    the name, looks that up and answers 404. *)
Theorem C2_name_is_remainder :
  let st := ServeHTTP demo.srv http.NewResponse (demo.get "/ping/now") in
  firstSegment "/ping/now" = Some "ping"
  ∧ operNameOf "/ping/now" = inr "ping/now"
  ∧ calls st = [CallOper "ping/now"; CallOperNames]
  ∧ http.status (httpRes st) = 404.
Proof. vm_compute. done. Qed.

(** C6, at a path whose first segment is empty: for [//ping] the dispatcher
    takes [/ping] for the name and asks the registry, and the reply is 404,
    not 400. *)
Theorem C6_empty_first_segment :
  let st := ServeHTTP demo.srv http.NewResponse (demo.get "//ping") in
  firstSegment "//ping" = Some ""
  ∧ calls st = [CallOper "/ping"; CallOperNames]
  ∧ times isRegistry (calls st) = 2%nat
  ∧ http.status (httpRes st) = 404.
Proof. vm_compute. done. Qed.


(** * More on the dispatcher *)

(** ** Strings, continued *)

Lemma CutPrefix_app_r (s p rest b : string) :
  CutPrefix s p = Some rest → CutPrefix (s +:+ b) p = Some (rest +:+ b).
Proof.
  revert s. induction p as [|c p IH]; intros s H; simplify_eq/=; [done|].
  destruct s as [|x s]; simplify_eq/=.
  case_decide; simplify_eq/=. by apply IH.
Qed.

Lemma Contains_app_l (s b substr : string) :
  Contains s substr = true → Contains (s +:+ b) substr = true.
Proof.
  induction s as [|c s IH]; rewrite Contains_unfold; unfold HasPrefix.
  - destruct (CutPrefix "" substr) as [rest|] eqn:H; [|done]. intros _.
    rewrite Contains_unfold. unfold HasPrefix.
    by rewrite (CutPrefix_app_r _ _ _ b H).
  - destruct (CutPrefix (String c s) substr) as [rest|] eqn:H.
    + intros _. rewrite Contains_unfold. unfold HasPrefix.
      by rewrite (CutPrefix_app_r _ _ _ b H).
    + rewrite orb_false_l. intros H'.
      rewrite app_cons, Contains_unfold, (IH H'). apply orb_true_r.
Qed.

Lemma Contains_refl (s : string) : Contains s s = true.
Proof.
  rewrite Contains_unfold.
  assert (H : HasPrefix s s = true); [|by rewrite H].
  unfold HasPrefix. assert (CutPrefix s s = Some "") as ->; [|done].
  induction s as [|c s IH]; [done|]. simpl. by rewrite decide_True.
Qed.

Lemma Contains_Join (elems : list string) (sep e : string) :
  In e elems → Contains (Join elems sep) e = true.
Proof.
  induction elems as [|x rest IH]; [done|]. intros [->|Hin].
  - destruct rest as [|y rest]; [apply Contains_refl|].
    change (Join (e :: y :: rest) sep) with (e +:+ sep +:+ Join (y :: rest) sep).
    apply Contains_prefix.
  - destruct rest as [|y rest]; [done|].
    change (Join (x :: y :: rest) sep) with (x +:+ sep +:+ Join (y :: rest) sep).
    by apply Contains_app_r, Contains_app_r, IH.
Qed.

(** ** Paths *)

Section Paths.
Context {Value Ctx : Type} `{!JSON Value}.
Implicit Types (s : @server Value Ctx) (httpReq : http.Request).

(** X1: the registry is asked first of all, and only for a path that is the
    separator followed by some text; it is asked for all of that text. *)
Theorem lookup_iff_path s (w : http.ResponseWriter) httpReq (name : string) :
  head (calls (ServeHTTP s w httpReq)) = Some (CallOper name)
  ↔ http.Path httpReq = "/" +:+ name ∧ name ≠ "".
Proof.
  rewrite <-operNameOf_inr.
  unfold ServeHTTP, ServeHTTP_body, requestOf.
  repeat case_match; simplify_eq;
    cbn beta iota zeta; unfold reply, call; cbn [httpRes calls fst snd app head];
    split; intros; simplify_eq; done.
Qed.

(** X2: a path that is not the separator followed by some text is answered
    with status 400 and the text "URL does not start with /<operName>", as
    plain text, and no collaborator is called. *)
Theorem refused_path_is_plain_400 s httpReq :
  (∀ name, http.Path httpReq = "/" +:+ name → name = "") →
  let st := ServeHTTP s http.NewResponse httpReq in
  calls st = []
  ∧ http.status (httpRes st) = http.StatusBadRequest
  ∧ http.body (httpRes st) = "URL does not start with /<operName>" +:+ http.newline
  ∧ http.sent (httpRes st) !! "Content-Type" = Some "text/plain; charset=utf-8"
  ∧ http.sent (httpRes st) !! "X-Content-Type-Options" = Some "nosniff".
Proof.
  intros Hpath.
  destruct (operNameOf (http.Path httpReq)) as [err|name] eqn:Hname.
  - pose proof (operNameOf_inl _ _ Hname) as ->.
    unfold ServeHTTP, ServeHTTP_body. rewrite Hname. done.
  - apply operNameOf_inr in Hname as [Hp Hne]. by apply Hpath in Hp.
Qed.
End Paths.

Lemma refused_path_is_plain_400_witness :
  let st := ServeHTTP demo.srv http.NewResponse (demo.get "ping") in
  calls st = [] ∧ http.status (httpRes st) = 400.
Proof.
  intros st.
  assert (Hpath : ∀ name, http.Path (demo.get "ping") = "/" +:+ name → name = "")
    by (intros name H; discriminate H).
  destruct (refused_path_is_plain_400 demo.srv (demo.get "ping") Hpath)
    as (Hcalls & Hstatus & _).
  split; [exact Hcalls | exact Hstatus].
Defined.

(** ** Requests *)

Section Requests.
Context {Value Ctx : Type} `{!JSON Value}.
Implicit Types (s : @server Value Ctx) (httpReq : http.Request).

Local Ltac run :=
  cbn beta iota zeta; unfold reply, call;
  cbn [httpRes calls fst snd app].

Local Ltac error_reply :=
  match goal with
  | |- context [deferred (Some ?e) ?w] =>
      let Hs := fresh in let Hb := fresh in let Hc := fresh in
      destruct (deferred_fresh e w eq_refl) as (_ & Hs & Hb & Hc);
      rewrite ?Hs, ?Hb, ?Hc
  end.

(** X3: a body that cannot be decoded into the request type of the
    operation is answered with status 400; the text names the type and gives
    the error of the decoder, and neither a validator nor the handler is
    called. *)
Theorem malformed_body_reply s httpReq (name : string)
    (oper : ms.Oper Value Ctx) (t : ms.Type_ Value) (instance : Value) (e : error) :
  operNameOf (http.Path httpReq) = inr name →
  ms.GetOper (ms s) name = Some oper →
  ms.ReqType oper = Some t →
  Decode t (http.Body httpReq) = (instance, Some e) →
  e ≠ errors.EOF →
  let st := ServeHTTP s http.NewResponse httpReq in
  calls st = [CallOper name; CallDecode (http.Body httpReq)]
  ∧ http.status (httpRes st) = http.StatusBadRequest
  ∧ http.body (httpRes st)
    = ("failed to decode body into " +:+ ms.Name t +:+ ": " +:+ errors.verbose e)
      +:+ http.newline.
Proof.
  intros Hname Hoper Htype Hdec Hne.
  unfold ServeHTTP, ServeHTTP_body, requestOf.
  rewrite Hname, Hoper, Htype, Hdec, (genuine_not_EOF e Hne). run.
  error_reply. done.
Qed.

(** X4: when the validator of the request type refuses the decoded
    instance, the reply has status 400 and the text "invalid request: "
    followed by the validator's error, whatever status code that error has;
    the handler is not called. *)
Theorem invalid_request_reply s httpReq (name : string)
    (oper : ms.Oper Value Ctx) (t : ms.Type_ Value) (instance : Value)
    (err : option error) (validate : Value → option error) (e : error) :
  operNameOf (http.Path httpReq) = inr name →
  ms.GetOper (ms s) name = Some oper →
  ms.ReqType oper = Some t →
  Decode t (http.Body httpReq) = (instance, err) →
  genuine err = None →
  ms.Validator t = Some validate →
  validate instance = Some e →
  let st := ServeHTTP s http.NewResponse httpReq in
  calls st = [CallOper name; CallDecode (http.Body httpReq); CallValidate instance]
  ∧ http.status (httpRes st) = http.StatusBadRequest
  ∧ http.body (httpRes st)
    = ("invalid request: " +:+ errors.verbose e) +:+ http.newline.
Proof.
  intros Hname Hoper Htype Hdec Hgen Hval He.
  unfold ServeHTTP, ServeHTTP_body, requestOf.
  rewrite Hname, Hoper, Htype, Hdec, Hgen, Hval, He. run.
  error_reply. done.
Qed.

(** X5: for an operation without a request type the body is not read: the
    handler is called with a nil request straight after the lookup, and the
    reply and the calls are the same for every body. *)
Theorem untyped_operation_ignores_body s (w : http.ResponseWriter) httpReq
    (name : string) (oper : ms.Oper Value Ctx) (body : string) :
  operNameOf (http.Path httpReq) = inr name →
  ms.GetOper (ms s) name = Some oper →
  ms.ReqType oper = None →
  let st := ServeHTTP s w httpReq in
  (∃ after,
     calls st = [CallOper name; CallNewContext;
                 CallHandle name (ms.NewContext (ms s)) None] ++ after
     ∧ times isMarshal after = length after)
  ∧ ServeHTTP s w {| http.Method := http.Method httpReq;
                     http.Path := http.Path httpReq;
                     http.Body := body |} = st.
Proof.
  intros Hname Hoper Htype.
  unfold ServeHTTP, ServeHTTP_body. cbn [http.Path http.Body].
  rewrite Hname, Hoper, Htype. split; [|done].
  repeat case_match; simplify_eq; run;
    first [ by exists [] | by eexists [_] ].
Qed.

End Requests.

Lemma malformed_body_reply_witness :
  let st := ServeHTTP demo.srv http.NewResponse (demo.post "/echo" "{") in
  http.status (httpRes st) = 400
  ∧ http.body (httpRes st)
    = "failed to decode body into demo.Flag: invalid character looking for beginning of value"
      +:+ http.newline.
Proof.
  intros st.
  assert (Hoper : ms.GetOper (ms demo.srv) "echo"
                  = Some {| ms.ReqType := Some demo.flag;
                            ms.Handle := λ _ req, (req, None) |})
    by (vm_compute; reflexivity).
  destruct (malformed_body_reply demo.srv (demo.post "/echo" "{") "echo" _ demo.flag
              (demo.Flag false)
              (errors.Foreign "invalid character looking for beginning of value")
              eq_refl Hoper eq_refl eq_refl) as (_ & Hstatus & Hbody);
    [discriminate|].
  split; [exact Hstatus | exact Hbody].
Defined.

Lemma invalid_request_reply_witness :
  let st := ServeHTTP demo.srv http.NewResponse (demo.post "/confirm" "false") in
  http.status (httpRes st) = 400
  ∧ http.body (httpRes st) = "invalid request: flag is not set" +:+ http.newline.
Proof.
  intros st.
  assert (Hoper : ms.GetOper (ms demo.srv) "confirm"
                  = Some {| ms.ReqType := Some demo.setFlag;
                            ms.Handle := λ _ req, (req, None) |})
    by (vm_compute; reflexivity).
  destruct (invalid_request_reply demo.srv (demo.post "/confirm" "false") "confirm"
              _ demo.setFlag (demo.Flag false) None _ (errors.Errorf "flag is not set")
              eq_refl Hoper eq_refl eq_refl eq_refl eq_refl eq_refl)
    as (_ & Hstatus & Hbody).
  split; [exact Hstatus | exact Hbody].
Defined.

Lemma untyped_operation_ignores_body_witness :
  ServeHTTP demo.srv http.NewResponse (demo.post "/ping" "anything")
  = ServeHTTP demo.srv http.NewResponse (demo.post "/ping" "").
Proof.
  assert (Hoper : ms.GetOper (ms demo.srv) "ping"
                  = Some {| ms.ReqType := None;
                            ms.Handle := λ _ _, (Some (demo.Flag true), None) |})
    by (vm_compute; reflexivity).
  apply (untyped_operation_ignores_body demo.srv http.NewResponse
           (demo.post "/ping" "") "ping" _ "anything" eq_refl Hoper eq_refl).
Defined.


(** ** Replies *)

Lemma errCodeOf_known (e : error) : http.StatusText (errCodeOf e) ≠ "".
Proof.
  unfold errCodeOf. destruct (errors.IError e); [|done].
  case_decide; done.
Qed.


Lemma StatusText_range (code : Z) :
  http.StatusText code ≠ "" → 100 ≤ code ≤ 511.
Proof.
  intros H. destruct (decide (100 ≤ code ≤ 511)) as [|Hout]; [done|].
  exfalso. apply H. clear H. destruct code as [|p|p]; [done| |done].
  unfold http.StatusText.
  do 10 (try (destruct p as [p|p|]; try reflexivity; try (exfalso; lia))).
Qed.

Section Replies.
Context {Value Ctx : Type} `{!JSON Value}.
Implicit Types (s : @server Value Ctx) (httpReq : http.Request).

Local Ltac run_in H :=
  unfold ServeHTTP, ServeHTTP_body, requestOf in *; repeat case_match; simplify_eq;
  cbn beta iota zeta in *; unfold reply, call in *;
  cbn [httpRes calls fst snd app] in *;
  simpl in H;
  repeat match goal with
         | H' : _ ∨ _ |- _ => destruct H'
         | H' : False |- _ => destruct H'
         end;
  simplify_eq;
  repeat match goal with
         | H1 : ?x = _, H2 : ?x = _ |- _ => rewrite H1 in H2; simplify_eq
         end.

Local Ltac error_reply :=
  match goal with
  | |- context [deferred (Some ?e) ?w] =>
      let Hs := fresh in let Hb := fresh in let Hc := fresh in
      destruct (deferred_fresh e w eq_refl) as (_ & Hs & Hb & Hc);
      rewrite ?Hs, ?Hb, ?Hc
  end.

(** X7: an error of the handler that has no status code, or one that is not
    a known HTTP status, is answered with status 500, as plain text that
    holds "<name> handler failed". *)
Theorem handler_error_without_code s httpReq (name : string)
    (oper : ms.Oper Value Ctx) (ctx : Ctx) (req res : option Value) (e : error) :
  ms.GetOper (ms s) name = Some oper →
  In (CallHandle name ctx req) (calls (ServeHTTP s http.NewResponse httpReq)) →
  ms.Handle oper ctx req = (res, Some e) →
  http.StatusText (errors.Code e) = "" →
  let w := httpRes (ServeHTTP s http.NewResponse httpReq) in
  http.status w = http.StatusInternalServerError
  ∧ Contains (http.body w) (name +:+ " handler failed") = true
  ∧ http.sent w !! "Content-Type" = Some "text/plain; charset=utf-8".
Proof.
  intros Hoper Hcall Hres Hcode. run_in Hcall.
  all: error_reply.
  all: rewrite Wrapf_Error; cbn [http.body http.NewResponse].
  all: rewrite app_empty_l, (app_assoc' (name +:+ " handler failed")).
  all: split; [|split; [apply Contains_prefix|done]].
  all: apply errCodeOf_default; right; by rewrite Wrapf_Code.
Qed.


(** X9: whatever the request and the service, the status of the reply is a
    status that [http.StatusText] knows, between 100 and 511, so
    [WriteHeader] is never given a code it rejects. *)
Theorem reply_status_is_known s httpReq :
  let w := httpRes (roundTrip s httpReq) in
  http.wroteHeader w = true
  ∧ http.StatusText (http.status w) ≠ ""
  ∧ 100 ≤ http.status w ≤ 511.
Proof.
  cut (let w := httpRes (roundTrip s httpReq) in
       http.wroteHeader w = true ∧ http.StatusText (http.status w) ≠ "").
  { intros (Hw & Hknown). split; [done|]. split; [done|].
    by apply StatusText_range. }
  unfold roundTrip, ServeHTTP, ServeHTTP_body, requestOf.
  repeat case_match; simplify_eq;
    cbn beta iota zeta; unfold reply, call; cbn [httpRes calls fst snd app].
  all: try (match goal with
            | |- context [deferred (Some ?e) http.NewResponse] =>
                destruct (deferred_fresh e http.NewResponse eq_refl)
                  as (Hw & Hs & _);
                unfold http.finishRequest; rewrite Hw, Hs;
                split; [done|apply errCodeOf_known]
            end).
  all: done.
Qed.


(** X11: the reply to an unknown operation mentions every name of the
    registry. *)
Theorem unknown_operation_mentions_every_name s httpReq (name : string) :
  operNameOf (http.Path httpReq) = inr name →
  ms.GetOper (ms s) name = None →
  ∀ known, In known (ms.OperNames (ms s)) →
    Contains (http.body (httpRes (ServeHTTP s http.NewResponse httpReq))) known
    = true.
Proof.
  intros Hname Hoper known Hin.
  unfold ServeHTTP, ServeHTTP_body. rewrite Hname, Hoper.
  cbn beta iota zeta; unfold reply, call; cbn [httpRes calls fst snd app].
  error_reply. cbn [http.body http.NewResponse errors.Error errors.Errorc].
  rewrite app_empty_l. apply Contains_app_l.
  do 3 apply Contains_app_r. by apply Contains_Join.
Qed.

(** X12: the calls of one request follow the text of [ServeHTTP] from top to
    bottom: lookup, names, decoding, validation, context, handler, encoding,
    each at most once and none out of turn. *)
Theorem calls_follow_the_text s (w : http.ResponseWriter) httpReq :
  StronglySorted lt (stage <$> calls (ServeHTTP s w httpReq)).
Proof.
  unfold ServeHTTP, ServeHTTP_body, requestOf.
  repeat case_match; simplify_eq;
    cbn beta iota zeta; unfold reply, call; cbn [httpRes calls fst snd app];
    simpl; repeat constructor; lia.
Qed.
End Replies.

Lemma handler_error_without_code_witness :
  let w := httpRes (ServeHTTP demo.srv http.NewResponse (demo.get "/crash")) in
  http.status w = 500
  ∧ Contains (http.body w) "crash handler failed" = true.
Proof.
  intros w.
  assert (Hoper : ms.GetOper (ms demo.srv) "crash"
                  = Some {| ms.ReqType := None;
                            ms.Handle := λ _ _,
                              (None, Some (errors.Foreign "out of luck")) |})
    by (vm_compute; reflexivity).
  assert (Hcall : In (CallHandle "crash" () None)
                     (calls (ServeHTTP demo.srv http.NewResponse (demo.get "/crash"))))
    by (vm_compute; tauto).
  destruct (handler_error_without_code demo.srv (demo.get "/crash") "crash" _ ()
              None None (errors.Foreign "out of luck") Hoper Hcall eq_refl eq_refl)
    as (Hstatus & Hbody & _).
  split; [exact Hstatus | exact Hbody].
Defined.



Lemma unknown_operation_mentions_every_name_witness :
  Contains (http.body (httpRes (ServeHTTP demo.srv http.NewResponse
                                  (demo.get "/missing")))) "forget" = true.
Proof.
  apply (unknown_operation_mentions_every_name demo.srv (demo.get "/missing")
           "missing" eq_refl).
  - vm_compute. reflexivity.
  - vm_compute. tauto.
Defined.

(** ** The listen address *)

Lemma pretty_N_go_no_colon (x : N) (s : string) :
  Contains s ":" = false → Contains (pretty_N_go x s) ":" = false.
Proof.
  revert s. induction (N.lt_wf_0 x) as [x _ IH]; intros s Hs.
  assert (x = 0 ∨ 0 < x)%N as [->|Hpos] by lia.
  - by rewrite pretty_N_go_0.
  - rewrite pretty_N_go_step by done. apply IH; [by apply N.div_lt|].
    rewrite Contains_unfold, Hs. unfold HasPrefix, pretty_N_char.
    by repeat case_match.
Qed.

Lemma pretty_Z_no_colon (z : Z) : Contains (pretty z) ":" = false.
Proof.
  assert (Hpos : ∀ p : positive, Contains (pretty p) ":" = false).
  { intros p. unfold pretty, pretty_positive, pretty, pretty_N.
    case_decide; [done|]. by apply pretty_N_go_no_colon. }
  destruct z as [|p|p]; [done|apply Hpos|].
  unfold pretty, pretty_Z. rewrite app_cons, app_empty_l, Contains_unfold.
  by rewrite Hpos.
Qed.

Lemma app_colon_inj (a1 a2 d1 d2 : string) :
  Contains d1 ":" = false → Contains d2 ":" = false →
  a1 +:+ ":" +:+ d1 = a2 +:+ ":" +:+ d2 → a1 = a2 ∧ d1 = d2.
Proof.
  intros H1 H2. revert a2.
  induction a1 as [|c a1 IH]; intros [|c' a2] Heq;
    rewrite ?app_empty_l, ?app_cons, ?app_empty_l in Heq; simplify_eq.
  - done.
  - by apply (eq_trans (eq_sym (Contains_infix a2 ":" d2))) in H1.
  - by apply (eq_trans (eq_sym (Contains_infix a1 ":" d1))) in H2.
  - destruct (IH a2) as [-> ->]; done.
Qed.

(** X13: the listen address that [Create] builds tells the configuration:
    two configurations with the same address are the same. *)
Theorem Create_addr_inj {Value Ctx : Type} (c1 c2 : Config)
    (m1 m2 : ms.MicroService Value Ctx) :
  addr (Create c1 m1).1 = addr (Create c2 m2).1 → c1 = c2.
Proof.
  destruct c1 as [a1 p1], c2 as [a2 p2]. simpl. intros Heq.
  apply app_colon_inj in Heq as [-> Hp]; [|apply pretty_Z_no_colon..].
  by apply (inj pretty) in Hp as ->.
Qed.

Lemma Create_addr_inj_witness :
  addr demo.srv = "localhost:8080"
  ∧ {| Addr := "localhost"; Port := 8080 |} = {| Addr := "localhost"; Port := 8080 |}.
Proof.
  split; [vm_compute; reflexivity|].
  apply (Create_addr_inj _ _ demo.service demo.service). reflexivity.
Defined.
